(** * maz-hw-gps: the NMEA log parser of [tools/parser.py]

    A shallow embedding of the Python module [tools/parser.py]: the line
    validator, the four sentence parsers, the loader, the accuracy
    statistics and the main program, followed by the properties of the
    specification that were checked against it.

    Python values are modelled as follows.
    - A [str] is a list of Unicode code points ([pystr]).
    - A [float] is an IEEE-754 binary64 number ([PrimFloat.float]).
    - A call that may raise is an [outcome]; a call that may also print,
      write a file or open a window carries the trace of those events ([io]).
    - The third-party libraries (pynmea2, numpy, geopy) and the operating
      system are interfaces: records of operations over which the
      embedding is parameterised. *)

From Stdlib Require Import List String Ascii NArith Bool Lia Floats.
Import ListNotations.

Set Implicit Arguments.

(** ** Python strings *)

Definition codepoint := N.
Definition pystr := list codepoint.

(** An ASCII literal of the source, as a Python string. *)
Definition lit (s : string) : pystr :=
  map N_of_ascii (list_ascii_of_string s).

Definition codepoint_eqb : codepoint -> codepoint -> bool := N.eqb.

(** [s.startswith(prefix)] *)
Fixpoint startswith (s prefix : pystr) : bool :=
  match prefix, s with
  | [], _ => true
  | _ :: _, [] => false
  | p :: prefix', c :: s' => codepoint_eqb c p && startswith s' prefix'
  end.

(** [str.isspace] on one character: the code points CPython's
    [_PyUnicode_IsWhitespace] accepts; these are what [str.strip()] without
    arguments removes. *)
Definition is_whitespace (c : codepoint) : bool :=
  ((9 <=? c) && (c <=? 13)            (* \t \n \v \f \r *)
   || (28 <=? c) && (c <=? 32)        (* FS GS RS US and the space *)
   || (c =? 133) || (c =? 160)        (* NEL, no-break space *)
   || (c =? 5760)                     (* U+1680 *)
   || (8192 <=? c) && (c <=? 8202)    (* U+2000 .. U+200A *)
   || (c =? 8232) || (c =? 8233)      (* U+2028, U+2029 *)
   || (c =? 8239) || (c =? 8287)      (* U+202F, U+205F *)
   || (c =? 12288))%N.                (* U+3000 *)

Fixpoint lstrip (s : pystr) : pystr :=
  match s with
  | [] => []
  | c :: s' => if is_whitespace c then lstrip s' else s
  end.

Definition rstrip (s : pystr) : pystr := rev (lstrip (rev s)).

(** [s.strip()] *)
Definition strip (s : pystr) : pystr := rstrip (lstrip s).

(** ** The two regular expressions of the validator *)

(** The character class [[^\x00-\x7F]]. *)
Definition non_ascii (c : codepoint) : bool := (127 <? c)%N.

(** [re.sub(r'[^\x00-\x7F]+', '', s)]: every maximal run of characters of the
    class is replaced by the empty string, so exactly the characters outside
    the class remain. *)
Definition sub_non_ascii (s : pystr) : pystr :=
  filter (fun c => negb (non_ascii c)) s.

(** The character class [[A-Z]]. *)
Definition upper (c : codepoint) : bool := ((65 <=? c) && (c <=? 90))%N.

Definition is_char (a : ascii) (c : codepoint) : bool :=
  codepoint_eqb c (N_of_ascii a).

(** A pattern that is a sequence of one-character classes, matched at the
    start of the string as [re.match] does. *)
Fixpoint match_classes (classes : list (codepoint -> bool)) (s : pystr) : bool :=
  match classes, s with
  | [], _ => true
  | _ :: _, [] => false
  | k :: classes', c :: s' => k c && match_classes classes' s'
  end.

(** [r'^\$[A-Z]{5},'] *)
Definition nmea_head : list (codepoint -> bool) :=
  [is_char "$"] ++ repeat upper 5 ++ [is_char ","].

(** ** [is_valid_nmea] *)

Definition is_valid_nmea (line : pystr) : bool :=
  let line := strip line in
  let line := sub_non_ascii line in
  match_classes nmea_head line.

(** ** Exceptions, outcomes and the event trace *)

(** The exception classes that occur: the three of [pynmea2.nmea]
    ([SentenceTypeError] and [ChecksumError] derive from [ParseError], which
    derives from [ValueError]) and the built-in ones. *)
Inductive exn : Type :=
| ChecksumError
| SentenceTypeError
| ParseError
| ValueError
| AttributeError
| IndexError
| OSError.

(** [isinstance(e, pynmea2.nmea.ChecksumError)]: the class has no subclass. *)
Definition is_ChecksumError (e : exn) : bool :=
  match e with
  | ChecksumError => true
  | _ => false
  end.

Inductive outcome (A : Type) : Type :=
| Returns (a : A)
| Raises (e : exn).
Arguments Raises {A} e.

Definition outcome_bind {A B} (c : outcome A) (k : A -> outcome B) : outcome B :=
  match c with
  | Returns a => k a
  | Raises e => Raises e
  end.

Declare Scope outcome_scope.
Delimit Scope outcome_scope with outcome.
Notation "x <- c ;; k" := (outcome_bind c (fun x => k))
  (at level 61, c at next level, right associativity) : outcome_scope.
Notation "' p <- c ;; k" := (outcome_bind c (fun x => let 'p := x in k))
  (at level 61, p pattern, c at next level, right associativity) : outcome_scope.

(** A [try: body except cls: pass] statement followed by [rest]. The body
    either executes a [return v] ([Some v]), runs to its end ([None]) or
    raises; an exception of the handled class is dropped and control falls
    through to [rest], any other exception leaves the function. *)
Definition try_except_pass {A} (body : outcome (option A))
    (handled : exn -> bool) (rest : outcome A) : outcome A :=
  match body with
  | Returns (Some v) => Returns v
  | Returns None => rest
  | Raises e => if handled e then rest else Raises e
  end.

(** What the program does to the outside world. *)
Inductive event : Type :=
| Print (text : string)
| WriteCsv (filename : string) (rows : list (float * float))
| ShowHistogram (errors : list float) (bins : nat)
    (title xlabel ylabel : string).

Definition is_print (ev : event) : bool :=
  match ev with
  | Print _ => true
  | _ => false
  end.

(** A computation with effects: the events up to its end, and how it ended. *)
Definition io (A : Type) : Type := list event * outcome A.

Definition io_ret {A} (a : A) : io A := ([], Returns a).

Definition io_bind {A B} (c : io A) (k : A -> io B) : io B :=
  match c with
  | (t, Returns a) => let (t', r) := k a in (t ++ t', r)
  | (t, Raises e) => (t, Raises e)
  end.

Definition lift {A} (c : outcome A) : io A := ([], c).

Definition emit (ev : event) : io unit := ([ev], Returns tt).

Definition print (text : string) : io unit := emit (Print text).

Declare Scope io_scope.
Delimit Scope io_scope with io.
Notation "x <- c ;; k" := (io_bind c (fun x => k))
  (at level 61, c at next level, right associativity) : io_scope.
Notation "' p <- c ;; k" := (io_bind c (fun x => let 'p := x in k))
  (at level 61, p pattern, c at next level, right associativity) : io_scope.
Notation "c ;; k" := (io_bind c (fun _ => k))
  (at level 61, right associativity) : io_scope.

(** ** The libraries and the host, as interfaces *)

(** [pynmea2]: [parse] decodes a line into a sentence object or raises;
    reading an attribute of that object may raise as well (a sentence type
    without the field, a malformed coordinate). *)
Record Pynmea2 : Type := {
  sentence : Type;
  parse : pystr -> outcome sentence;
  status : sentence -> outcome pystr;
  latitude : sentence -> outcome float;
  longitude : sentence -> outcome float
}.

(** [numpy] and [geopy]. [np_percentile] is [numpy.percentile] called with
    its default method; [geodesic_meters a b] is [geodesic(a, b).meters],
    which raises [ValueError] on a latitude outside [-90, 90]. *)
Record Numeric : Type := {
  np_mean : list float -> float;
  np_square : list float -> list float;
  np_sqrt : float -> float;
  np_percentile : list float -> list N -> list float;
  geodesic_meters : float * float -> float * float -> outcome float
}.

(** The operating system and the formatting of the run time.
    [open_lines p] is the sequence of lines that iterating over
    [open(p, 'r', encoding='utf-8', errors='ignore')] yields. *)
Record Host : Type := {
  abspath : string -> string;
  path_exists : string -> bool;
  open_lines : string -> outcome (list pystr);
  basename : string -> string;
  splitext_root : string -> string;
  format_2f : float -> string
}.

(** The truth value of a list: [not xs] holds of the empty list only. *)
Definition not_ {A} (xs : list A) : bool :=
  match xs with
  | [] => true
  | _ :: _ => false
  end.

Fixpoint pystr_eqb (s t : pystr) : bool :=
  match s, t with
  | [], [] => true
  | c :: s', d :: t' => codepoint_eqb c d && pystr_eqb s' t'
  | _, _ => false
  end.

(** The result of [calculate_percentiles]: the list literal [[]] of its
    guard, or the array that [numpy.percentile] returns. *)
Inductive percentiles_value : Type :=
| PyList (items : list float)
| NdArray (items : list float).

(** [a.size]: a list has no such attribute. *)
Definition size (a : percentiles_value) : outcome nat :=
  match a with
  | PyList _ => Raises AttributeError
  | NdArray items => Returns (List.length items)
  end.

(** [a[i]] *)
Definition getitem (a : percentiles_value) (i : nat) : outcome float :=
  match a with
  | PyList items | NdArray items =>
      match nth_error items i with
      | Some x => Returns x
      | None => Raises IndexError
      end
  end.

Section Parser.

Variable nmea : Pynmea2.
Variable np : Numeric.
Variable host : Host.

(** ** The sentence parsers *)

Local Open Scope outcome_scope.

Definition parse_gngll (line : pystr) : outcome (option float * option float) :=
  try_except_pass
    (msg <- parse nmea line ;;
     st <- status nmea msg ;;
     if pystr_eqb st (lit "A") then
       lat <- latitude nmea msg ;;
       lon <- longitude nmea msg ;;
       Returns (Some (Some lat, Some lon))
     else Returns None)
    is_ChecksumError
    (Returns (None, None)).

Definition parse_gpgga (line : pystr) : outcome (option float * option float) :=
  try_except_pass
    (msg <- parse nmea line ;;
     lat <- latitude nmea msg ;;
     lon <- longitude nmea msg ;;
     Returns (Some (Some lat, Some lon)))
    is_ChecksumError
    (Returns (None, None)).

Definition parse_gprmc (line : pystr) : outcome (option float * option float) :=
  try_except_pass
    (msg <- parse nmea line ;;
     st <- status nmea msg ;;
     if pystr_eqb st (lit "A") then
       lat <- latitude nmea msg ;;
       lon <- longitude nmea msg ;;
       Returns (Some (Some lat, Some lon))
     else Returns None)
    is_ChecksumError
    (Returns (None, None)).

Definition parse_gnrmc (line : pystr) : outcome (option float * option float) :=
  try_except_pass
    (msg <- parse nmea line ;;
     st <- status nmea msg ;;
     if pystr_eqb st (lit "A") then
       lat <- latitude nmea msg ;;
       lon <- longitude nmea msg ;;
       Returns (Some (Some lat, Some lon))
     else Returns None)
    is_ChecksumError
    (Returns (None, None)).

(** ** [load_gps_data] *)

(** The [if]/[elif] chain on the raw line: the parser call it selects, or
    [None] for the final [else: continue]. *)
Definition dispatch (line : pystr)
  : option (outcome (option float * option float)) :=
  if startswith line (lit "$GNGLL") then Some (parse_gngll line)
  else if startswith line (lit "$GPGGA") then Some (parse_gpgga line)
  else if startswith line (lit "$GPRMC") then Some (parse_gprmc line)
  else if startswith line (lit "$GNRMC") then Some (parse_gnrmc line)
  else None.

(** One iteration of [for line in file], on the two accumulators. *)
Definition loop_body (line : pystr) (acc : list float * list float)
  : outcome (list float * list float) :=
  let '(latitudes, longitudes) := acc in
  if negb (is_valid_nmea line) then Returns acc
  else
    match dispatch line with
    | None => Returns acc
    | Some call =>
        '(lat, lon) <- call ;;
        match lat, lon with
        | Some lat, Some lon =>
            Returns (latitudes ++ [lat], longitudes ++ [lon])
        | _, _ => Returns acc
        end
    end.

Fixpoint for_lines (lines : list pystr) (acc : list float * list float)
  : outcome (list float * list float) :=
  match lines with
  | [] => Returns acc
  | line :: rest => acc' <- loop_body line acc ;; for_lines rest acc'
  end.

Local Close Scope outcome_scope.
Local Open Scope io_scope.
Local Open Scope string_scope.

Definition load_gps_data (filename : string) : io (list float * list float) :=
  let file_path := abspath host filename in
  if negb (path_exists host file_path) then
    print ("错误：文件 " ++ file_path ++ " 不存在!") ;;
    io_ret ([], [])
  else
    lines <- lift (open_lines host file_path) ;;
    lift (for_lines lines ([], [])).

(** ** The statistics *)

(** The loop of [calculate_rms] that fills [errors]. *)
Fixpoint append_errors (centre : float * float) (points : list (float * float))
    (errors : list float) : outcome (list float) :=
  match points with
  | [] => Returns errors
  | (lat, lon) :: rest =>
      outcome_bind (geodesic_meters np centre (lat, lon))
        (fun d => append_errors centre rest (errors ++ [d]))
  end.

Definition calculate_rms (latitudes longitudes : list float) : io float :=
  if not_ latitudes || not_ longitudes then
    print "错误：没有有效的 GPS 数据，无法计算 RMS!" ;;
    io_ret PrimFloat.nan
  else
    let mean_lat := np_mean np latitudes in
    let mean_lon := np_mean np longitudes in
    errors <- lift (append_errors (mean_lat, mean_lon)
                      (combine latitudes longitudes) []) ;;
    let rms := np_sqrt np (np_mean np (np_square np errors)) in
    io_ret rms.

Definition calculate_percentiles (errors : list float) (percentiles : list N)
  : io percentiles_value :=
  if not_ errors then
    print "错误：没有有效的误差数据，无法计算百分位!" ;;
    io_ret (PyList [])
  else io_ret (NdArray (np_percentile np errors percentiles)).

Definition default_percentiles : list N := [68; 95]%N.

Definition save_coordinates (latitudes longitudes : list float)
    (filename : string) : io unit :=
  emit (WriteCsv filename (combine latitudes longitudes)).

Definition plot_errors (errors : list float) (filename : string) : io unit :=
  if negb (not_ errors) then
    emit (ShowHistogram errors 50 filename "Error (meters)" "Frequency")
  else print "错误：没有足够的误差数据进行绘图!".

(** The list comprehension of [main]: the mean is taken again for every
    point, the distances come out in the order of the points. *)
Fixpoint comprehension_errors (latitudes longitudes : list float)
    (points : list (float * float)) : outcome (list float) :=
  match points with
  | [] => Returns []
  | (lat, lon) :: rest =>
      outcome_bind
        (geodesic_meters np (np_mean np latitudes, np_mean np longitudes)
           (lat, lon))
        (fun d =>
           outcome_bind (comprehension_errors latitudes longitudes rest)
             (fun ds => Returns (d :: ds)))
  end.

(** ** [main], given the value of its command-line argument *)

Definition main (file : string) : io unit :=
  '(latitudes, longitudes) <- load_gps_data file ;;
  if not_ latitudes || not_ longitudes then
    print "错误：没有解析到有效的 GPS 数据。"
  else
    rms <- calculate_rms latitudes longitudes ;;
    (if negb (PrimFloat.is_nan rms) then
       print ("RMS: " ++ format_2f host rms ++ " meters")
     else print "RMS 计算失败。") ;;
    errors <- lift (comprehension_errors latitudes longitudes
                      (combine latitudes longitudes)) ;;
    percentiles <- calculate_percentiles errors default_percentiles ;;
    n <- lift (size percentiles) ;;
    (if Nat.ltb 0 n then
       p68 <- lift (getitem percentiles 0) ;;
       print ("68% percentile error: " ++ format_2f host p68 ++ " meters") ;;
       p95 <- lift (getitem percentiles 1) ;;
       print ("95% percentile error: " ++ format_2f host p95 ++ " meters")
     else print "无法计算百分位误差。") ;;
    let base_filename := splitext_root host (basename host file) in
    let output_filename := base_filename ++ ".csv" in
    save_coordinates latitudes longitudes output_filename ;;
    plot_errors errors base_filename.

End Parser.

(** * The vocabulary of the specification *)

(** ** The validator *)

(** The cleaning in the words of the specification: strip the line, then
    keep its printable ASCII characters only. *)
Definition printable_ascii (c : codepoint) : bool :=
  ((32 <=? c) && (c <=? 126))%N.

Definition clean_printable (line : pystr) : pystr :=
  filter printable_ascii (strip line).

Definition uppercase_letter (c : codepoint) : Prop := (65 <= c <= 90)%N.

(** ** The loader *)

(** The four sentence types of the specification, recognised by the first
    six characters of a line. *)
Inductive sentence_type : Type := GNGLL | GPGGA | GPRMC | GNRMC.

Definition prefix (t : sentence_type) : pystr :=
  match t with
  | GNGLL => lit "$GNGLL"
  | GPGGA => lit "$GPGGA"
  | GPRMC => lit "$GPRMC"
  | GNRMC => lit "$GNRMC"
  end.

Definition recognized (line : pystr) : option sentence_type :=
  find (fun t => pystr_eqb (firstn 6 line) (prefix t))
    [GNGLL; GPGGA; GPRMC; GNRMC].

Section Position_series.

Variable nmea : Pynmea2.

Definition parseFix (t : sentence_type) (line : pystr)
  : outcome (option float * option float) :=
  match t with
  | GNGLL => parse_gngll nmea line
  | GPGGA => parse_gpgga nmea line
  | GPRMC => parse_gprmc nmea line
  | GNRMC => parse_gnrmc nmea line
  end.

(** What one line adds to the position series, in the words of the
    specification: its fix, when it passes the validator, carries a
    recognised prefix and parses to a fix; nothing otherwise. *)
Definition contribution (line : pystr) : list (float * float) :=
  if is_valid_nmea line then
    match recognized line with
    | Some t =>
        match parseFix t line with
        | Returns (Some lat, Some lon) => [(lat, lon)]
        | _ => []
        end
    | None => []
    end
  else [].

Definition position_series (lines : list pystr) : list (float * float) :=
  flat_map contribution lines.

(** The parser of every dispatched line returns. *)
Definition parses (line : pystr) : Prop :=
  is_valid_nmea line = true ->
  forall t, recognized line = Some t -> exists r, parseFix t line = Returns r.

(** The lines for which the loop of the loader calls a parser. *)
Definition dispatched (line : pystr) : bool :=
  is_valid_nmea line
  && match recognized line with
     | Some _ => true
     | None => false
     end.

(** [pair] is the pair of coordinates that the decoder gives for [line],
    a line that the loader dispatches and, for the types with a status,
    one whose status is ['A']. *)
Definition decoded_fix (line : pystr) (pair : float * float) : Prop :=
  is_valid_nmea line = true
  /\ exists t msg,
      recognized line = Some t
      /\ parse nmea line = Returns msg
      /\ latitude nmea msg = Returns (fst pair)
      /\ longitude nmea msg = Returns (snd pair)
      /\ (t <> GPGGA -> status nmea msg = Returns (lit "A")).

End Position_series.

(** ** The analyzer *)

Section Analyzer.

Variable np : Numeric.

(** The analyzer in the words of the specification. *)
Definition centroid (series : list (float * float)) : float * float :=
  (np_mean np (map fst series), np_mean np (map snd series)).

(** [errors] holds, point by point, the distance to the centroid. *)
Definition error_series (series : list (float * float)) (errors : list float)
  : Prop :=
  Forall2 (fun point d => geodesic_meters np (centroid series) point = Returns d)
    series errors.

Definition root_mean_square (errors : list float) : float :=
  np_sqrt np (np_mean np (np_square np errors)).

End Analyzer.

(** * Stand-ins for the interfaces

    Small executable instances, used to run the embedding on examples. *)

Module Standin.

Record toy_sentence : Type := {
  toy_status : option pystr;
  toy_latitude : float;
  toy_longitude : float
}.

(** A decoder given by a table of lines; a line that is not in the table
    does not parse. *)
Definition table_decoder (table : list (pystr * outcome toy_sentence)) : Pynmea2 :=
  {| sentence := toy_sentence;
     parse := fun line =>
       match find (fun entry => pystr_eqb (fst entry) line) table with
       | Some entry => snd entry
       | None => Raises ParseError
       end;
     status := fun msg =>
       match toy_status msg with
       | Some st => Returns st
       | None => Raises AttributeError
       end;
     latitude := fun msg => Returns (toy_latitude msg);
     longitude := fun msg => Returns (toy_longitude msg) |}.

Definition float_sum (xs : list float) : float :=
  fold_left PrimFloat.add xs 0%float.

Definition float_count (xs : list float) : float :=
  fold_left (fun n _ => PrimFloat.add n 1%float) xs 0%float.

Definition float_max (xs : list float) : float :=
  fold_left (fun m x => if PrimFloat.ltb m x then x else m) xs 0%float.

(** Sequential mean, distances on a flat grid of 111320 meters per degree,
    and the largest value for every percentile. *)
Definition flat_numeric : Numeric :=
  {| np_mean := fun xs => PrimFloat.div (float_sum xs) (float_count xs);
     np_square := map (fun x => PrimFloat.mul x x);
     np_sqrt := PrimFloat.sqrt;
     np_percentile := fun xs qs => map (fun _ => float_max xs) qs;
     geodesic_meters := fun a b =>
       let dlat := PrimFloat.sub (fst a) (fst b) in
       let dlon := PrimFloat.sub (snd a) (snd b) in
       if PrimFloat.ltb 90%float (PrimFloat.abs (fst b)) then Raises ValueError
       else Returns (PrimFloat.mul 111320%float
                       (PrimFloat.sqrt (PrimFloat.add (PrimFloat.mul dlat dlat)
                                          (PrimFloat.mul dlon dlon)))) |}.

(** A file system given by a table of files, with paths taken as they are. *)
Definition table_host (files : list (string * list pystr)) : Host :=
  {| abspath := fun p => p;
     path_exists := fun p =>
       existsb (fun entry => String.eqb (fst entry) p) files;
     open_lines := fun p =>
       match find (fun entry => String.eqb (fst entry) p) files with
       | Some entry => Returns (snd entry)
       | None => Raises OSError
       end;
     basename := fun p => p;
     splitext_root := fun p => p;
     format_2f := fun _ => "#.##"%string |}.

Definition gga_line : pystr := lit "$GPGGA,092750.000,5321.6802,N,00630.3372,W,1,8,1.03,61.7,M,55.2,M,,*76".
Definition gll_void_line : pystr := lit "$GNGLL,5321.6802,N,00630.3372,W,092750.000,V*2C".
Definition rmc_line : pystr := lit "$GPRMC,092750.000,A,5321.6802,N,00630.3372,W,0.02,31.66,280511,,,A*43".
Definition bad_checksum_line : pystr := lit "$GNRMC,092750.000,A,5321.6802,N,00630.3372,W,0.02,31.66,280511,,,A*00".

(** A sentence cut off inside its checksum. *)
Definition truncated_line : pystr := lit "$GPGGA,092750.000,5321.6802,N,00630.3372,W,1,8,1.03,61.7,M,55.2,M,,*7".

(** A [$GPGGA] header followed by a non-ASCII character (U+00E9), and a
    valid [$GPRMC] sentence behind a byte-order mark (U+FEFF). *)
Definition noisy_gga_line : pystr := lit "$GPGGA" ++ [233%N] ++ lit ",1".
Definition bom_rmc_line : pystr := 65279%N :: rmc_line.

Definition fix_at (st : option pystr) (lat lon : float) : toy_sentence :=
  {| toy_status := st; toy_latitude := lat; toy_longitude := lon |}.

Definition decoder : Pynmea2 :=
  table_decoder
    [ (gga_line, Returns (fix_at None 53.25 (-6.5)));
      (gll_void_line, Returns (fix_at (Some (lit "V")) 53.25 (-6.5)));
      (rmc_line, Returns (fix_at (Some (lit "A")) 53.75 (-6.25)));
      (bad_checksum_line, Raises ChecksumError) ].

(** A decoder that reads a latitude of 95 degrees off the [$GPRMC] line. *)
Definition off_range_decoder : Pynmea2 :=
  table_decoder
    [ (gga_line, Returns (fix_at None 53.25 (-6.5)));
      (rmc_line, Returns (fix_at (Some (lit "A")) 95 0)) ].

Definition log_lines : list pystr :=
  [ gga_line; lit "noise"; gll_void_line; rmc_line; bad_checksum_line;
    lit "$GPGSV,3,1,11,03,03,111,00*74" ].

Definition disk : Host := table_host [("log.txt"%string, log_lines)].

(** A log whose second sentence is cut off inside its checksum. *)
Definition truncated_log : list pystr := [gga_line; truncated_line].

Definition truncated_disk : Host :=
  table_host [("log.txt"%string, truncated_log)].


End Standin.

(** * Properties *)

(** ** The embedding at work *)

Example load_log :
  load_gps_data Standin.decoder Standin.disk "log.txt"
  = ([], Returns ([53.25; 53.75]%float, [-6.5; -6.25]%float)).
Proof. vm_compute. reflexivity. Qed.

Example main_log :
  exists errors,
    main Standin.decoder Standin.flat_numeric Standin.disk "log.txt"
    = ([ Print "RMS: #.## meters";
         Print "68% percentile error: #.## meters";
         Print "95% percentile error: #.## meters";
         WriteCsv "log.txt.csv" [(53.25, -6.5); (53.75, -6.25)]%float;
         ShowHistogram errors 50 "log.txt" "Error (meters)" "Frequency" ],
       Returns tt).
Proof. eexists. vm_compute. reflexivity. Qed.

Ltac dispatched_line_returns :=
  intros _ t Ht; vm_compute in Ht;
  first [ discriminate Ht
        | injection Ht as <-; eexists; vm_compute; reflexivity ].

(** ** Strings *)

Lemma pystr_eqb_eq (s t : pystr) : pystr_eqb s t = true <-> s = t.
Proof.
  revert t. induction s as [|c s IH]; intros [|d t]; simpl;
    try (split; [discriminate | congruence]); try tauto.
  unfold codepoint_eqb. rewrite andb_true_iff, N.eqb_eq, IH.
  split; [intros [-> ->]; reflexivity | intros [= -> ->]; auto].
Qed.

Lemma pystr_eqb_refl (s : pystr) : pystr_eqb s s = true.
Proof. apply pystr_eqb_eq. reflexivity. Qed.

Lemma pystr_eqb_neq (s t : pystr) : s <> t -> pystr_eqb s t = false.
Proof.
  intros H. destruct (pystr_eqb s t) eqn:E; [|reflexivity].
  apply pystr_eqb_eq in E. contradiction.
Qed.

(** [startswith] compares the prefix with as many leading characters. *)
Lemma startswith_firstn (s prefix : pystr) :
  startswith s prefix = pystr_eqb (firstn (List.length prefix) s) prefix.
Proof.
  revert s. induction prefix as [|p prefix IH]; intros [|c s]; simpl; auto.
  rewrite IH. reflexivity.
Qed.

Lemma startswith_app (s prefix : pystr) :
  startswith s prefix = true <-> exists rest, s = prefix ++ rest.
Proof.
  revert s. induction prefix as [|p prefix IH]; intros s; simpl.
  - split; [intros _; exists s; reflexivity | destruct s; reflexivity].
  - destruct s as [|c s].
    + split; [discriminate | intros [rest H]; discriminate].
    + simpl. unfold codepoint_eqb. rewrite andb_true_iff, N.eqb_eq, IH.
      split.
      * intros [-> [rest ->]]. exists rest. reflexivity.
      * intros [rest [= -> ->]]. split; [reflexivity | exists rest; reflexivity].
Qed.

(** Stripping on the right leaves a leading non-blank character alone. *)
Lemma lstrip_snoc (s : pystr) (c : codepoint) :
  is_whitespace c = false -> lstrip (s ++ [c]) = lstrip s ++ [c].
Proof.
  intros Hc. induction s as [|d s IH]; simpl.
  - rewrite Hc. reflexivity.
  - destruct (is_whitespace d); [exact IH | reflexivity].
Qed.

Lemma rstrip_cons (c : codepoint) (s : pystr) :
  is_whitespace c = false -> rstrip (c :: s) = c :: rstrip s.
Proof.
  intros Hc. unfold rstrip. simpl.
  rewrite lstrip_snoc by exact Hc. rewrite rev_app_distr. reflexivity.
Qed.

Lemma strip_cons (c : codepoint) (s : pystr) :
  is_whitespace c = false -> strip (c :: s) = c :: rstrip s.
Proof.
  intros Hc. unfold strip. simpl. rewrite Hc. apply rstrip_cons, Hc.
Qed.

(** What the pattern of the validator accepts. *)
Lemma match_nmea_head (s : pystr) :
  match_classes nmea_head s = true <->
  exists a b c d e rest,
    s = N_of_ascii "$" :: a :: b :: c :: d :: e :: N_of_ascii "," :: rest
    /\ upper a = true /\ upper b = true /\ upper c = true
    /\ upper d = true /\ upper e = true.
Proof.
  split.
  - destruct s as [|c0 [|c1 [|c2 [|c3 [|c4 [|c5 [|c6 rest]]]]]]]; simpl;
      rewrite ?andb_false_r; try discriminate.
    unfold is_char, codepoint_eqb.
    rewrite !andb_true_iff, !N.eqb_eq.
    intros (-> & U1 & U2 & U3 & U4 & U5 & -> & _).
    exists c1, c2, c3, c4, c5, rest. auto 10.
  - intros (a & b & c & d & e & rest & -> & Ua & Ub & Uc & Ud & Ue).
    simpl. rewrite Ua, Ub, Uc, Ud, Ue. reflexivity.
Qed.

(** ** The validator *)

Lemma upper_spec (c : codepoint) : upper c = true <-> uppercase_letter c.
Proof.
  unfold upper, uppercase_letter.
  rewrite andb_true_iff, !N.leb_le. reflexivity.
Qed.

Lemma sub_non_ascii_keeps (s : pystr) :
  sub_non_ascii s = filter (fun c => (c <=? 127)%N) s.
Proof.
  unfold sub_non_ascii, non_ascii. apply filter_ext.
  intros c. rewrite N.ltb_antisym, negb_involutive. reflexivity.
Qed.

(** C3, refuted as stated: a control character is ASCII, so the validator
    keeps it in front of the [$] and rejects the line, although the line
    cleaned of everything that is not printable ASCII matches the pattern. *)
Lemma control_character_is_kept :
  match_classes nmea_head (clean_printable (1%N :: lit "$GPGGA,1")) = true
  /\ is_valid_nmea (1%N :: lit "$GPGGA,1") = false.
Proof. split; reflexivity. Qed.

(** C3, amended: [is_valid_nmea line] holds exactly when the line, stripped
    of leading and trailing whitespace and then of every character outside
    the ASCII range (code points above 127), begins with [$], five
    uppercase ASCII letters and a comma. *)
Theorem is_valid_nmea_iff (line : pystr) :
  is_valid_nmea line = true <->
  exists a b c d e rest,
    filter (fun ch => (ch <=? 127)%N) (strip line)
    = N_of_ascii "$" :: a :: b :: c :: d :: e :: N_of_ascii "," :: rest
    /\ uppercase_letter a /\ uppercase_letter b /\ uppercase_letter c
    /\ uppercase_letter d /\ uppercase_letter e.
Proof.
  unfold is_valid_nmea. rewrite match_nmea_head, sub_non_ascii_keeps.
  split; intros (a & b & c & d & e & rest & Heq & Ha & Hb & Hc & Hd & He);
    exists a, b, c, d, e, rest;
    (split; [exact Heq|]);
    rewrite <- ?upper_spec in *; rewrite ?upper_spec in *; auto.
Qed.

(** ** The sentence parsers *)

Section Sentence_parsers.

Variable nmea : Pynmea2.

(** The three parsers with a status gate have one body. *)
Lemma parse_gprmc_gngll (line : pystr) :
  parse_gprmc nmea line = parse_gngll nmea line.
Proof. reflexivity. Qed.

Lemma parse_gnrmc_gngll (line : pystr) :
  parse_gnrmc nmea line = parse_gngll nmea line.
Proof. reflexivity. Qed.

Lemma parse_gngll_raises (line : pystr) (e : exn) :
  parse nmea line = Raises e ->
  parse_gngll nmea line
  = if is_ChecksumError e then Returns (None, None) else Raises e.
Proof. intros H. unfold parse_gngll. rewrite H. reflexivity. Qed.

Lemma parse_gpgga_raises (line : pystr) (e : exn) :
  parse nmea line = Raises e ->
  parse_gpgga nmea line
  = if is_ChecksumError e then Returns (None, None) else Raises e.
Proof. intros H. unfold parse_gpgga. rewrite H. reflexivity. Qed.

Lemma parse_gngll_void (line : pystr) (msg : sentence nmea) (st : pystr) :
  parse nmea line = Returns msg ->
  status nmea msg = Returns st ->
  st <> lit "A" ->
  parse_gngll nmea line = Returns (None, None).
Proof.
  intros Hp Hs Hst. unfold parse_gngll. rewrite Hp. simpl. rewrite Hs. simpl.
  rewrite (pystr_eqb_neq Hst). reflexivity.
Qed.

Lemma parse_gngll_active (line : pystr) (msg : sentence nmea) (lat lon : float) :
  parse nmea line = Returns msg ->
  status nmea msg = Returns (lit "A") ->
  latitude nmea msg = Returns lat ->
  longitude nmea msg = Returns lon ->
  parse_gngll nmea line = Returns (Some lat, Some lon).
Proof.
  intros Hp Hs Hlat Hlon. unfold parse_gngll.
  rewrite Hp. simpl. rewrite Hs. simpl. rewrite Hlat. simpl. rewrite Hlon.
  reflexivity.
Qed.

Lemma parse_gpgga_decoded (line : pystr) (msg : sentence nmea) (lat lon : float) :
  parse nmea line = Returns msg ->
  latitude nmea msg = Returns lat ->
  longitude nmea msg = Returns lon ->
  parse_gpgga nmea line = Returns (Some lat, Some lon).
Proof.
  intros Hp Hlat Hlon. unfold parse_gpgga.
  rewrite Hp. simpl. rewrite Hlat. simpl. rewrite Hlon. reflexivity.
Qed.

End Sentence_parsers.

(** C1, refuted as stated: a decode error other than a checksum mismatch
    is not caught. The truncated sentence passes the validator, the
    decoder raises [ParseError] on it, and so does [parse_gpgga]. *)
Lemma parse_error_reaches_caller :
  is_valid_nmea Standin.truncated_line = true
  /\ parse Standin.decoder Standin.truncated_line = Raises ParseError
  /\ parse_gpgga Standin.decoder Standin.truncated_line = Raises ParseError
  /\ parse_gpgga Standin.decoder Standin.truncated_line <> Returns (None, None).
Proof. repeat split; try reflexivity. discriminate. Qed.

(** C1, amended: when the decoder raises [ChecksumError], each of the four
    parsers returns [(None, None)] and raises nothing; any other exception
    of the decoder is not caught and leaves the parser unchanged. *)
Theorem decode_error_handling (nmea : Pynmea2) (line : pystr) (e : exn) :
  parse nmea line = Raises e ->
  let result :=
    if is_ChecksumError e then Returns (None, None) else Raises e in
  parse_gngll nmea line = result /\ parse_gpgga nmea line = result
  /\ parse_gprmc nmea line = result /\ parse_gnrmc nmea line = result.
Proof.
  intros H result. subst result.
  change (parse_gprmc nmea line) with (parse_gngll nmea line).
  change (parse_gnrmc nmea line) with (parse_gngll nmea line).
  rewrite (parse_gngll_raises _ _ H), (parse_gpgga_raises _ _ H). auto.
Qed.

Lemma decode_error_handling_witness :
  parse Standin.decoder Standin.bad_checksum_line = Raises ChecksumError
  /\ parse_gnrmc Standin.decoder Standin.bad_checksum_line
     = Returns (None, None).
Proof.
  split; [reflexivity|].
  apply (@decode_error_handling Standin.decoder Standin.bad_checksum_line
           ChecksumError).
  reflexivity.
Defined.

(** C4: for a line the decoder decodes, [parse_gpgga] returns the decoded
    coordinates whatever else the sentence holds, while [parse_gngll],
    [parse_gprmc] and [parse_gnrmc] return [(None, None)] when the status
    is not ['A'], without reading the coordinates, and the decoded
    coordinates when it is; so they return a fix only for status ['A']. *)
Theorem status_gate (nmea : Pynmea2) (line : pystr) (msg : sentence nmea) :
  parse nmea line = Returns msg ->
  (forall lat lon,
      latitude nmea msg = Returns lat -> longitude nmea msg = Returns lon ->
      parse_gpgga nmea line = Returns (Some lat, Some lon))
  /\ forall gated,
      In gated [parse_gngll nmea; parse_gprmc nmea; parse_gnrmc nmea] ->
      forall st, status nmea msg = Returns st ->
        (st <> lit "A" -> gated line = Returns (None, None))
        /\ (st = lit "A" -> forall lat lon,
              latitude nmea msg = Returns lat ->
              longitude nmea msg = Returns lon ->
              gated line = Returns (Some lat, Some lon))
        /\ (forall lat lon,
              gated line = Returns (Some lat, Some lon) -> st = lit "A").
Proof.
  intros Hp. split.
  - intros lat lon. apply parse_gpgga_decoded, Hp.
  - intros gated Hin st Hs.
    assert (Hg : gated line = parse_gngll nmea line).
    { simpl in Hin. destruct Hin as [<-|[<-|[<-|[]]]]; reflexivity. }
    rewrite Hg. repeat split.
    + intros Hst. exact (parse_gngll_void _ _ Hp Hs Hst).
    + intros -> lat lon. apply parse_gngll_active; assumption.
    + intros lat lon Hfix.
      destruct (list_eq_dec N.eq_dec st (lit "A")) as [Heq|Hne]; [exact Heq|].
      rewrite (parse_gngll_void _ _ Hp Hs Hne) in Hfix. discriminate.
Qed.

Lemma status_gate_witness :
  parse_gpgga Standin.decoder Standin.gga_line
  = Returns (Some 53.25%float, Some (-6.5)%float)
  /\ parse_gngll Standin.decoder Standin.gll_void_line = Returns (None, None)
  /\ parse_gprmc Standin.decoder Standin.rmc_line
     = Returns (Some 53.75%float, Some (-6.25)%float).
Proof.
  split; [|split].
  - apply (@status_gate Standin.decoder Standin.gga_line
             (Standin.fix_at None 53.25 (-6.5)));
      reflexivity.
  - eapply (@status_gate Standin.decoder Standin.gll_void_line
              (Standin.fix_at (Some (lit "V")) 53.25 (-6.5)));
      [reflexivity | simpl; auto | reflexivity | discriminate].
  - eapply (@status_gate Standin.decoder Standin.rmc_line
              (Standin.fix_at (Some (lit "A")) 53.75 (-6.25)));
      [reflexivity | simpl; auto | reflexivity | reflexivity
      | reflexivity | reflexivity].
Defined.

(** ** The loader *)

Section Loader.

Variable nmea : Pynmea2.

Lemma dispatch_recognized (line : pystr) :
  dispatch nmea line = option_map (fun t => parseFix nmea t line) (recognized line).
Proof.
  unfold dispatch, recognized. rewrite !startswith_firstn.
  change (List.length (lit "$GNGLL")) with 6.
  change (List.length (lit "$GPGGA")) with 6.
  change (List.length (lit "$GPRMC")) with 6.
  change (List.length (lit "$GNRMC")) with 6.
  cbn [find prefix].
  repeat match goal with
         | |- context [pystr_eqb ?a ?b] => destruct (pystr_eqb a b)
         end; reflexivity.
Qed.

Lemma loop_body_contribution (line : pystr) (latitudes longitudes : list float) :
  parses nmea line ->
  loop_body nmea line (latitudes, longitudes)
  = Returns (latitudes ++ map fst (contribution nmea line),
             longitudes ++ map snd (contribution nmea line)).
Proof.
  intros Hp. unfold loop_body, contribution, parses in *.
  rewrite dispatch_recognized.
  destruct (is_valid_nmea line); simpl; [|rewrite !app_nil_r; reflexivity].
  destruct (recognized line) as [t|]; simpl; [|rewrite !app_nil_r; reflexivity].
  destruct (Hp eq_refl t eq_refl) as [[lat lon] ->]. simpl.
  destruct lat, lon; simpl; rewrite ?app_nil_r; reflexivity.
Qed.

Lemma for_lines_series (lines : list pystr) :
  Forall (parses nmea) lines ->
  forall latitudes longitudes,
    for_lines nmea lines (latitudes, longitudes)
    = Returns (latitudes ++ map fst (position_series nmea lines),
               longitudes ++ map snd (position_series nmea lines)).
Proof.
  induction 1 as [|line lines Hline _ IH]; intros latitudes longitudes;
    cbn [for_lines].
  - simpl. rewrite !app_nil_r. reflexivity.
  - rewrite (loop_body_contribution _ _ Hline). cbn [outcome_bind]. rewrite IH.
    unfold position_series. cbn [flat_map].
    rewrite !map_app, !app_assoc. reflexivity.
Qed.

(** Both accumulators grow together. *)
Lemma loop_body_lengths (line : pystr) (acc acc' : list float * list float) :
  loop_body nmea line acc = Returns acc' ->
  List.length (fst acc) = List.length (snd acc) ->
  List.length (fst acc') = List.length (snd acc').
Proof.
  destruct acc as [latitudes longitudes]. unfold loop_body.
  destruct (negb (is_valid_nmea line)); [intros [= <-]; auto|].
  destruct (dispatch nmea line) as [call|]; [|intros [= <-]; auto].
  destruct call as [[lat lon]|e]; simpl; [|discriminate].
  destruct lat, lon; intros [= <-]; simpl; auto.
  intros H. rewrite !length_app, H. reflexivity.
Qed.

Lemma for_lines_lengths (lines : list pystr) :
  forall acc acc',
    for_lines nmea lines acc = Returns acc' ->
    List.length (fst acc) = List.length (snd acc) ->
    List.length (fst acc') = List.length (snd acc').
Proof.
  induction lines as [|line lines IH]; intros acc acc'; cbn [for_lines].
  - intros [= <-]. auto.
  - destruct (loop_body nmea line acc) as [acc1|e] eqn:E; cbn [outcome_bind];
      [|discriminate].
    intros Hrest Hlen. apply (IH _ _ Hrest).
    exact (loop_body_lengths _ _ E Hlen).
Qed.

Variable host : Host.

Lemma load_gps_data_missing (filename : string) :
  path_exists host (abspath host filename) = false ->
  load_gps_data nmea host filename
  = ([Print ("错误：文件 " ++ abspath host filename ++ " 不存在!")],
     Returns ([], [])).
Proof. intros H. unfold load_gps_data. rewrite H. reflexivity. Qed.

Lemma load_gps_data_existing (filename : string) :
  path_exists host (abspath host filename) = true ->
  load_gps_data nmea host filename
  = ([], outcome_bind (open_lines host (abspath host filename))
           (fun lines => for_lines nmea lines ([], []))).
Proof.
  intros H. unfold load_gps_data. rewrite H. simpl.
  destruct (open_lines host (abspath host filename)); reflexivity.
Qed.

Lemma load_gps_data_lengths (filename : string) (t : list event)
    (latitudes longitudes : list float) :
  load_gps_data nmea host filename = (t, Returns (latitudes, longitudes)) ->
  List.length latitudes = List.length longitudes.
Proof.
  destruct (path_exists host (abspath host filename)) eqn:E.
  - rewrite (load_gps_data_existing _ E).
    destruct (open_lines host (abspath host filename)) as [lines|e]; simpl;
      [|discriminate].
    intros [= _ H]. exact (for_lines_lengths _ _ H eq_refl).
  - rewrite (load_gps_data_missing _ E). intros [= _ <- <-]. reflexivity.
Qed.

Lemma load_gps_data_prints (filename : string) :
  forallb is_print (fst (load_gps_data nmea host filename)) = true.
Proof.
  destruct (path_exists host (abspath host filename)) eqn:E.
  - rewrite (load_gps_data_existing _ E). reflexivity.
  - rewrite (load_gps_data_missing _ E). reflexivity.
Qed.

End Loader.

(** [zip] of two lists of one length loses nothing. *)
Lemma combine_same_length {A B} (xs : list A) (ys : list B) :
  List.length xs = List.length ys ->
  map fst (combine xs ys) = xs /\ map snd (combine xs ys) = ys
  /\ List.length (combine xs ys) = List.length xs.
Proof.
  revert ys. induction xs as [|x xs IH]; intros [|y ys]; simpl;
    try discriminate; auto.
  intros [= H]. destruct (IH ys H) as (-> & -> & ->). auto.
Qed.

Lemma combine_map_fst_snd {A B} (ps : list (A * B)) :
  combine (map fst ps) (map snd ps) = ps.
Proof.
  induction ps as [|[a b] ps IH]; simpl; [|rewrite IH]; reflexivity.
Qed.

(** A line whose parser raises stops the loader with that exception. *)
Lemma for_lines_raises (nmea : Pynmea2) (before after : list pystr)
    (line : pystr) (t : sentence_type) (e : exn) :
  Forall (parses nmea) before ->
  is_valid_nmea line = true ->
  recognized line = Some t ->
  parseFix nmea t line = Raises e ->
  forall acc, for_lines nmea (before ++ line :: after) acc = Raises e.
Proof.
  intros Hbefore Hvalid Hrec Hraise.
  induction Hbefore as [|l ls Hl _ IH]; intros [latitudes longitudes];
    cbn [for_lines app].
  - unfold loop_body. rewrite Hvalid, dispatch_recognized, Hrec. simpl.
    rewrite Hraise. reflexivity.
  - rewrite (loop_body_contribution _ _ Hl). cbn [outcome_bind]. apply IH.
Qed.

Example load_stops_at_parse_error :
  load_gps_data Standin.decoder
    (Standin.table_host
       [("log.txt"%string, [Standin.gga_line; Standin.truncated_line])])
    "log.txt"
  = ([], Raises ParseError).
Proof. vm_compute. reflexivity. Qed.

(** C5, refuted as stated: not every input file has a resulting series.
    The file below exists and holds a valid [$GPGGA] sentence followed by
    one cut off inside its checksum; the second line passes the validator
    and carries a recognised prefix, its parser raises, and the loader
    raises with it instead of returning the one fix of the first line. *)
Lemma series_lost_at_parse_error :
  path_exists Standin.truncated_disk (abspath Standin.truncated_disk "log.txt")
  = true
  /\ open_lines Standin.truncated_disk
       (abspath Standin.truncated_disk "log.txt")
     = Returns Standin.truncated_log
  /\ dispatched Standin.truncated_line = true
  /\ position_series Standin.decoder Standin.truncated_log
     = [(53.25, -6.5)%float]
  /\ load_gps_data Standin.decoder Standin.truncated_disk "log.txt"
     = ([], Raises ParseError)
  /\ load_gps_data Standin.decoder Standin.truncated_disk "log.txt"
     <> ([], Returns (map fst (position_series Standin.decoder
                                 Standin.truncated_log),
                      map snd (position_series Standin.decoder
                                 Standin.truncated_log))).
Proof. repeat split; try reflexivity. vm_compute. discriminate. Qed.

(** C5, amended: on an existing file whose dispatched lines all parse
    without an exception, [load_gps_data] returns the position series of
    the file: in file order, one (latitude, longitude) pair for every line
    that passes the validator, begins with one of the four recognised
    prefixes and parses to a fix, and nothing for any other line. *)
Theorem load_gps_data_series (nmea : Pynmea2) (host : Host)
    (filename : string) (lines : list pystr) :
  path_exists host (abspath host filename) = true ->
  open_lines host (abspath host filename) = Returns lines ->
  Forall (parses nmea) lines ->
  load_gps_data nmea host filename
  = ([], Returns (map fst (position_series nmea lines),
                  map snd (position_series nmea lines))).
Proof.
  intros Hexists Hopen Hparses.
  rewrite (load_gps_data_existing _ _ _ Hexists), Hopen. cbn [outcome_bind].
  rewrite (for_lines_series Hparses). reflexivity.
Qed.

Lemma load_gps_data_series_witness :
  load_gps_data Standin.decoder Standin.disk "log.txt"
  = ([], Returns ([53.25; 53.75]%float, [-6.5; -6.25]%float)).
Proof.
  apply (@load_gps_data_series Standin.decoder Standin.disk "log.txt"
           Standin.log_lines).
  - reflexivity.
  - reflexivity.
  - repeat (apply Forall_cons; [dispatched_line_returns|]). apply Forall_nil.
Defined.

(** C9: whenever [load_gps_data] returns, its two lists have the same
    length, so zipping them pairs every latitude with its longitude and
    drops no element. *)
Theorem load_gps_data_parallel (nmea : Pynmea2) (host : Host)
    (filename : string) (t : list event) (latitudes longitudes : list float) :
  load_gps_data nmea host filename = (t, Returns (latitudes, longitudes)) ->
  List.length latitudes = List.length longitudes
  /\ map fst (combine latitudes longitudes) = latitudes
  /\ map snd (combine latitudes longitudes) = longitudes
  /\ List.length (combine latitudes longitudes) = List.length latitudes.
Proof.
  intros H. apply load_gps_data_lengths in H.
  split; [exact H | apply combine_same_length, H].
Qed.

Lemma load_gps_data_parallel_witness :
  load_gps_data Standin.decoder Standin.disk "log.txt"
  = ([], Returns ([53.25; 53.75]%float, [-6.5; -6.25]%float))
  /\ List.length [53.25; 53.75]%float = List.length [-6.5; -6.25]%float
  /\ map fst (combine [53.25; 53.75]%float [-6.5; -6.25]%float)
     = [53.25; 53.75]%float
  /\ map snd (combine [53.25; 53.75]%float [-6.5; -6.25]%float)
     = [-6.5; -6.25]%float
  /\ List.length (combine [53.25; 53.75]%float [-6.5; -6.25]%float)
     = List.length [53.25; 53.75]%float.
Proof.
  split; [reflexivity|].
  apply (@load_gps_data_parallel Standin.decoder Standin.disk "log.txt" []).
  reflexivity.
Defined.

(** A line that begins with a recognised prefix keeps its first six
    characters through the cleaning of the validator. *)
Lemma prefix_survives_cleaning (line : pystr) (t : sentence_type) :
  startswith line (prefix t) = true ->
  firstn 6 (sub_non_ascii (strip line)) = firstn 6 line.
Proof.
  intros H. apply startswith_app in H. destruct H as [rest ->].
  destruct t;
    match goal with
    | |- context [prefix ?t] =>
        let p := fresh "p" in
        set (p := prefix t); vm_compute in p; subst p
    end;
    cbn [app];
    rewrite strip_cons by reflexivity; rewrite !rstrip_cons by reflexivity;
    reflexivity.
Qed.

(** C10, refuted as stated: the line below passes the validator only
    because the cleaning removes the character after its header (the raw
    line does not match the pattern), and yet its raw prefix matches, so
    the raw line is handed to [parse_gpgga]. *)
Lemma noise_after_header_is_dispatched :
  is_valid_nmea Standin.noisy_gga_line = true
  /\ match_classes nmea_head Standin.noisy_gga_line = false
  /\ startswith Standin.noisy_gga_line (lit "$GPGGA") = true
  /\ dispatch Standin.decoder Standin.noisy_gga_line
     = Some (parse_gpgga Standin.decoder Standin.noisy_gga_line).
Proof. repeat split. Qed.

(** C10, amended: the validator cleans a copy of its own; the dispatch
    tests the raw line and hands the raw line to the parser. For every
    line that passes the validator and whose first six characters are
    changed by the cleaning (whitespace or non-ASCII characters before or
    inside the header), no raw prefix matches and the line leaves the
    series as it was. *)
Theorem cleaned_header_not_dispatched (nmea : Pynmea2) (line : pystr) :
  (forall t, recognized line = Some t ->
             dispatch nmea line = Some (parseFix nmea t line))
  /\ (is_valid_nmea line = true ->
      firstn 6 line <> firstn 6 (sub_non_ascii (strip line)) ->
      (forall t, startswith line (prefix t) = false)
      /\ dispatch nmea line = None
      /\ forall acc, loop_body nmea line acc = Returns acc).
Proof.
  split.
  - intros t Ht. rewrite dispatch_recognized, Ht. reflexivity.
  - intros _ Hchanged.
    assert (Hno : forall t, startswith line (prefix t) = false).
    { intros t. destruct (startswith line (prefix t)) eqn:E; [|reflexivity].
      apply prefix_survives_cleaning in E. congruence. }
    assert (Hd : dispatch nmea line = None).
    { unfold dispatch.
      rewrite (Hno GNGLL : startswith line (lit "$GNGLL") = false).
      rewrite (Hno GPGGA : startswith line (lit "$GPGGA") = false).
      rewrite (Hno GPRMC : startswith line (lit "$GPRMC") = false).
      rewrite (Hno GNRMC : startswith line (lit "$GNRMC") = false).
      reflexivity. }
    repeat split; auto.
    intros [latitudes longitudes]. unfold loop_body. rewrite Hd.
    destruct (negb (is_valid_nmea line)); reflexivity.
Qed.

Lemma cleaned_header_not_dispatched_witness :
  is_valid_nmea Standin.bom_rmc_line = true
  /\ dispatch Standin.decoder Standin.bom_rmc_line = None
  /\ for_lines Standin.decoder [Standin.bom_rmc_line] ([], [])
     = Returns ([], []).
Proof.
  assert (Hvalid : is_valid_nmea Standin.bom_rmc_line = true) by reflexivity.
  destruct (@cleaned_header_not_dispatched Standin.decoder Standin.bom_rmc_line)
    as [_ H].
  destruct (H Hvalid) as (_ & Hd & Hbody).
  - vm_compute. discriminate.
  - split; [exact Hvalid|]. split; [exact Hd|].
    cbn [for_lines]. rewrite Hbody. reflexivity.
Defined.

(** ** The statistics *)

Section Statistics.

Variable np : Numeric.

Lemma append_errors_spec (centre : float * float)
    (points : list (float * float)) (ds : list float) :
  Forall2 (fun point d => geodesic_meters np centre point = Returns d) points ds ->
  forall errors, append_errors np centre points errors = Returns (errors ++ ds).
Proof.
  induction 1 as [|[lat lon] d points ds Hd _ IH]; intros errors; simpl.
  - rewrite app_nil_r. reflexivity.
  - rewrite Hd. simpl. rewrite IH, <- app_assoc. reflexivity.
Qed.

Lemma comprehension_errors_spec (latitudes longitudes : list float)
    (points : list (float * float)) (ds : list float) :
  Forall2 (fun point d =>
             geodesic_meters np (np_mean np latitudes, np_mean np longitudes) point
             = Returns d) points ds ->
  comprehension_errors np latitudes longitudes points = Returns ds.
Proof.
  induction 1 as [|[lat lon] d points ds Hd _ IH]; simpl.
  - reflexivity.
  - rewrite Hd. simpl. rewrite IH. reflexivity.
Qed.

Lemma calculate_rms_empty (latitudes longitudes : list float) :
  latitudes = [] \/ longitudes = [] ->
  calculate_rms np latitudes longitudes
  = ([Print "错误：没有有效的 GPS 数据，无法计算 RMS!"], Returns PrimFloat.nan).
Proof.
  intros H. unfold calculate_rms.
  assert (E : not_ latitudes || not_ longitudes = true).
  { destruct H as [-> | ->]; [reflexivity | apply orb_true_r]. }
  rewrite E. reflexivity.
Qed.

Lemma series_not_empty (series : list (float * float)) :
  series <> [] -> not_ (map fst series) || not_ (map snd series) = false.
Proof. destruct series as [|[lat lon] series]; [contradiction | reflexivity]. Qed.

Lemma error_series_not_empty (series : list (float * float))
    (errors : list float) :
  series <> [] -> error_series np series errors -> not_ errors = false.
Proof. intros Hne Herr. inversion Herr; subst; [contradiction | reflexivity]. Qed.

Lemma calculate_rms_series (series : list (float * float))
    (errors : list float) :
  series <> [] ->
  error_series np series errors ->
  calculate_rms np (map fst series) (map snd series)
  = ([], Returns (root_mean_square np errors)).
Proof.
  intros Hne Herr. unfold calculate_rms.
  rewrite (series_not_empty Hne), combine_map_fst_snd.
  unfold error_series, centroid in Herr.
  rewrite (@append_errors_spec _ _ _ Herr []). reflexivity.
Qed.

Lemma comprehension_errors_series (series : list (float * float))
    (errors : list float) :
  error_series np series errors ->
  comprehension_errors np (map fst series) (map snd series)
    (combine (map fst series) (map snd series))
  = Returns errors.
Proof.
  intros Herr. rewrite combine_map_fst_snd.
  apply comprehension_errors_spec, Herr.
Qed.

Lemma calculate_percentiles_array (errors : list float) (percentiles : list N) :
  not_ errors = false ->
  calculate_percentiles np errors percentiles
  = ([], Returns (NdArray (np_percentile np errors percentiles))).
Proof. intros He. unfold calculate_percentiles. rewrite He. reflexivity. Qed.

End Statistics.

(** C2, refuted as stated: on empty series [calculate_rms] prints its
    message and returns the float NaN. *)
Lemma calculate_rms_of_nothing_is_nan :
  exists x,
    snd (calculate_rms Standin.flat_numeric [] []) = Returns x
    /\ PrimFloat.is_nan x = true.
Proof. exists PrimFloat.nan. split; reflexivity. Qed.

(** C2, amended: on an empty latitude or longitude series [calculate_rms]
    prints a message and returns NaN, the float that [main] then tests with
    [isnan]; on an empty error series [calculate_percentiles] prints a
    message and returns the empty list, which is no number. *)
Theorem empty_input_results (np : Numeric) (latitudes longitudes : list float)
    (percentiles : list N) :
  latitudes = [] \/ longitudes = [] ->
  calculate_rms np latitudes longitudes
  = ([Print "错误：没有有效的 GPS 数据，无法计算 RMS!"], Returns PrimFloat.nan)
  /\ PrimFloat.is_nan PrimFloat.nan = true
  /\ calculate_percentiles np [] percentiles
     = ([Print "错误：没有有效的误差数据，无法计算百分位!"], Returns (PyList [])).
Proof.
  intros H. split; [apply calculate_rms_empty, H|]. split; reflexivity.
Qed.

Lemma empty_input_results_witness :
  calculate_rms Standin.flat_numeric [] [1%float]
  = ([Print "错误：没有有效的 GPS 数据，无法计算 RMS!"], Returns PrimFloat.nan)
  /\ PrimFloat.is_nan PrimFloat.nan = true
  /\ calculate_percentiles Standin.flat_numeric [] default_percentiles
     = ([Print "错误：没有有效的误差数据，无法计算百分位!"], Returns (PyList [])).
Proof.
  apply (@empty_input_results Standin.flat_numeric [] [1%float]
           default_percentiles).
  left. reflexivity.
Defined.

(** C7: for a non-empty position series whose distances to the centroid
    [geodesic] computes, the centroid is the pair of the mean of the
    latitudes and the mean of the longitudes; the loop of [calculate_rms]
    and the comprehension of [main] both produce the distances of the
    points to that centroid, in the order of the series; the RMS is the
    square root of the mean of their squares; and the percentiles are those
    [numpy.percentile] gives at 68 and 95 with its default method, the
    linear interpolation between order statistics. *)
Theorem analyzer_formulas (np : Numeric) (series : list (float * float))
    (errors : list float) :
  series <> [] ->
  error_series np series errors ->
  let latitudes := map fst series in
  let longitudes := map snd series in
  calculate_rms np latitudes longitudes
  = ([], Returns (root_mean_square np errors))
  /\ comprehension_errors np latitudes longitudes (combine latitudes longitudes)
     = Returns errors
  /\ calculate_percentiles np errors default_percentiles
     = ([], Returns (NdArray (np_percentile np errors [68; 95]%N)))
  /\ List.length errors = List.length series.
Proof.
  intros Hne Herr latitudes longitudes. subst latitudes longitudes.
  split; [apply calculate_rms_series; assumption|].
  split; [apply comprehension_errors_series; assumption|].
  split.
  - apply calculate_percentiles_array.
    exact (error_series_not_empty Hne Herr).
  - symmetry. eapply Forall2_length, Herr.
Qed.

Lemma analyzer_formulas_witness :
  exists errors,
    calculate_rms Standin.flat_numeric [53.25; 53.75]%float [-6.5; -6.25]%float
    = ([], Returns (root_mean_square Standin.flat_numeric errors))
    /\ List.length errors = 2.
Proof.
  eexists.
  refine (let H := @analyzer_formulas Standin.flat_numeric
                     [(53.25, -6.5); (53.75, -6.25)]%float _ _ _ in
          conj (proj1 H) (proj2 (proj2 (proj2 H)))).
  - discriminate.
  - repeat (apply Forall2_cons; [vm_compute; reflexivity|]). apply Forall2_nil.
Defined.


(** In binary64 arithmetic the mean of equal values, taken as their sum
    divided by their number, need not be that value: the centroid of
    identical points may differ from the point in the last place. *)
Remark mean_of_equal_floats_inexact :
  PrimFloat.eqb
    (np_mean Standin.flat_numeric
       [0x1.999999999999ap-4; 0x1.999999999999ap-4; 0x1.999999999999ap-4]%float)
    0x1.999999999999ap-4%float
  = false.
Proof. vm_compute. reflexivity. Qed.




(** ** The main program *)

Section Main.

Variable nmea : Pynmea2.
Variable np : Numeric.
Variable host : Host.

Lemma main_no_fix (file : string) (t : list event)
    (latitudes longitudes : list float) :
  load_gps_data nmea host file = (t, Returns (latitudes, longitudes)) ->
  latitudes = [] \/ longitudes = [] ->
  main nmea np host file
  = (t ++ [Print "错误：没有解析到有效的 GPS 数据。"], Returns tt).
Proof.
  intros Hload Hempty. unfold main. rewrite Hload. cbn [io_bind].
  assert (E : not_ latitudes || not_ longitudes = true).
  { destruct Hempty as [-> | ->]; [reflexivity | apply orb_true_r]. }
  rewrite E. reflexivity.
Qed.

(** X13: with fixes, and distances that [geodesic] computes, [main]
    prints the RMS (or the failure message when it is NaN) and the two
    percentiles, then writes the whole series to the CSV named after the
    input file, then shows the 50-bin histogram of the very errors it
    reported on, and returns. *)
Lemma main_with_data (file : string) (t : list event)
    (series : list (float * float)) (errors : list float) (p68 p95 : float) :
  load_gps_data nmea host file
  = (t, Returns (map fst series, map snd series)) ->
  series <> [] ->
  error_series np series errors ->
  np_percentile np errors default_percentiles = [p68; p95] ->
  let rms := root_mean_square np errors in
  let base_filename := splitext_root host (basename host file) in
  main nmea np host file
  = (t ++ [ Print (if PrimFloat.is_nan rms then "RMS 计算失败。"
                   else "RMS: " ++ format_2f host rms ++ " meters");
            Print ("68% percentile error: " ++ format_2f host p68 ++ " meters");
            Print ("95% percentile error: " ++ format_2f host p95 ++ " meters");
            WriteCsv (base_filename ++ ".csv") series;
            ShowHistogram errors 50 base_filename
              "Error (meters)" "Frequency" ],
     Returns tt).
Proof.
  intros Hload Hne Herr Hpct rms base_filename. unfold main.
  rewrite Hload. cbn [io_bind].
  rewrite (series_not_empty Hne).
  rewrite (calculate_rms_series Hne Herr).
  rewrite (comprehension_errors_series Herr).
  pose proof (error_series_not_empty Hne Herr) as He.
  unfold save_coordinates, plot_errors. rewrite combine_map_fst_snd.
  cbn [io_bind lift]. fold rms. fold base_filename.
  destruct (PrimFloat.is_nan rms);
    cbn [io_bind lift print emit negb app];
    rewrite (@calculate_percentiles_array np errors default_percentiles He), Hpct;
    cbn [io_bind lift print emit size getitem nth_error List.length Nat.ltb
           Nat.leb app];
    rewrite He; reflexivity.
Qed.

End Main.

Example main_all_noise :
  main Standin.decoder Standin.flat_numeric
    (Standin.table_host
       [("log.txt"%string, [lit "noise"; Standin.gll_void_line])])
    "log.txt"
  = ([Print "错误：没有解析到有效的 GPS 数据。"], Returns tt).
Proof. vm_compute. reflexivity. Qed.

(** C6: when the input file is missing, or the loader returns without a
    single fix, [main] prints the diagnostic and returns: its events are
    those of the loader followed by that one message, all of them prints,
    so no statistics are computed or reported, no CSV is written and no
    histogram is shown; for a missing file the loader's only event is the
    message that the file does not exist. *)
Theorem main_without_data (nmea : Pynmea2) (np : Numeric) (host : Host)
    (file : string) :
  path_exists host (abspath host file) = false
  \/ (exists t latitudes longitudes,
         load_gps_data nmea host file = (t, Returns (latitudes, longitudes))
         /\ (latitudes = [] \/ longitudes = [])) ->
  main nmea np host file
  = (fst (load_gps_data nmea host file)
       ++ [Print "错误：没有解析到有效的 GPS 数据。"],
     Returns tt)
  /\ forallb is_print (fst (main nmea np host file)) = true
  /\ (path_exists host (abspath host file) = false ->
      fst (load_gps_data nmea host file)
      = [Print ("错误：文件 " ++ abspath host file ++ " 不存在!")]).
Proof.
  intros H.
  assert (Hmain : main nmea np host file
                  = (fst (load_gps_data nmea host file)
                       ++ [Print "错误：没有解析到有效的 GPS 数据。"],
                     Returns tt)).
  { destruct H as [Hmissing | (t & latitudes & longitudes & Hload & Hempty)].
    - rewrite (@main_no_fix nmea np host file _ _ _
                 (load_gps_data_missing nmea host _ Hmissing))
        by (left; reflexivity).
      rewrite (load_gps_data_missing nmea host _ Hmissing). reflexivity.
    - rewrite (@main_no_fix nmea np host file _ _ _ Hload Hempty), Hload.
      reflexivity. }
  split; [exact Hmain|]. split.
  - rewrite Hmain. cbn [fst]. rewrite forallb_app, load_gps_data_prints.
    reflexivity.
  - intros Hmissing. rewrite (load_gps_data_missing nmea host _ Hmissing).
    reflexivity.
Qed.

Lemma main_without_data_witness :
  main Standin.decoder Standin.flat_numeric Standin.disk "nolog.txt"
  = ([Print "错误：文件 nolog.txt 不存在!";
      Print "错误：没有解析到有效的 GPS 数据。"],
     Returns tt).
Proof.
  refine (proj1 (@main_without_data Standin.decoder Standin.flat_numeric
                   Standin.disk "nolog.txt" _)).
  left. reflexivity.
Defined.

(** * Further properties of the module *)

(** ** The validator and whitespace *)

Lemma forallb_rev_true {A} (f : A -> bool) (l : list A) :
  forallb f l = true -> forallb f (rev l) = true.
Proof.
  rewrite !forallb_forall. intros H x Hx. apply H, in_rev, Hx.
Qed.

Lemma lstrip_blank (ws : pystr) :
  forallb is_whitespace ws = true -> lstrip ws = [].
Proof.
  induction ws as [|c ws IH]; simpl; [reflexivity|].
  rewrite andb_true_iff. intros [-> H]. exact (IH H).
Qed.

Lemma lstrip_app_blank (ws s : pystr) :
  forallb is_whitespace ws = true -> lstrip (ws ++ s) = lstrip s.
Proof.
  induction ws as [|c ws IH]; simpl; [reflexivity|].
  rewrite andb_true_iff. intros [-> H]. exact (IH H).
Qed.

Lemma rstrip_app_blank (s ws : pystr) :
  forallb is_whitespace ws = true -> rstrip (s ++ ws) = rstrip s.
Proof.
  intros H. unfold rstrip. rewrite rev_app_distr.
  rewrite lstrip_app_blank by (apply forallb_rev_true, H). reflexivity.
Qed.

Lemma strip_app_blank (s ws : pystr) :
  forallb is_whitespace ws = true -> strip (s ++ ws) = strip s.
Proof.
  intros H. unfold strip. induction s as [|c s IH]; simpl.
  - rewrite lstrip_blank by exact H. reflexivity.
  - destruct (is_whitespace c); [exact IH|].
    change (c :: s ++ ws) with ((c :: s) ++ ws). apply rstrip_app_blank, H.
Qed.

Lemma strip_surrounded (before s after : pystr) :
  forallb is_whitespace before = true ->
  forallb is_whitespace after = true ->
  strip (before ++ s ++ after) = strip s.
Proof.
  intros Hb Ha. rewrite app_assoc, strip_app_blank by exact Ha.
  unfold strip. rewrite lstrip_app_blank by exact Hb. reflexivity.
Qed.

(** X1: whitespace around a line, such as the line terminator that the
    iteration over the file leaves in place, does not change the verdict
    of the validator. *)
Theorem is_valid_nmea_surrounded (before line after : pystr) :
  forallb is_whitespace before = true ->
  forallb is_whitespace after = true ->
  is_valid_nmea (before ++ line ++ after) = is_valid_nmea line.
Proof.
  intros Hb Ha. unfold is_valid_nmea.
  rewrite strip_surrounded by assumption. reflexivity.
Qed.

Lemma is_valid_nmea_surrounded_witness :
  is_valid_nmea (lit "  " ++ Standin.gga_line ++ [13; 10]%N)
  = is_valid_nmea Standin.gga_line.
Proof.
  apply (@is_valid_nmea_surrounded (lit "  ") Standin.gga_line [13; 10]%N);
    reflexivity.
Defined.

Lemma upper_plain (c : codepoint) :
  upper c = true -> is_whitespace c = false /\ non_ascii c = false.
Proof.
  rewrite upper_spec. unfold uppercase_letter. intros [Hlo Hhi]. split.
  - apply not_true_is_false. unfold is_whitespace.
    rewrite !orb_true_iff, !andb_true_iff, !N.leb_le, !N.eqb_eq. lia.
  - unfold non_ascii. apply N.ltb_ge. lia.
Qed.

(** X2: the cleaning never costs a well-formed line its verdict: a line
    that matches the pattern as it stands is valid. *)
Theorem raw_match_is_valid (line : pystr) :
  match_classes nmea_head line = true -> is_valid_nmea line = true.
Proof.
  rewrite match_nmea_head.
  intros (a & b & c & d & e & rest & -> & Ha & Hb & Hc & Hd & He).
  destruct (upper_plain _ Ha) as [Wa Na], (upper_plain _ Hb) as [Wb Nb],
    (upper_plain _ Hc) as [Wc Nc], (upper_plain _ Hd) as [Wd Nd],
    (upper_plain _ He) as [We Ne].
  unfold is_valid_nmea.
  rewrite strip_cons by reflexivity.
  do 5 (rewrite rstrip_cons by assumption).
  rewrite rstrip_cons by reflexivity.
  unfold sub_non_ascii. cbn [filter].
  rewrite Na, Nb, Nc, Nd, Ne.
  change (non_ascii (N_of_ascii "$")) with false.
  change (non_ascii (N_of_ascii ",")) with false.
  cbn [negb]. apply match_nmea_head.
  eexists a, b, c, d, e, _. repeat split; assumption.
Qed.

Lemma raw_match_is_valid_witness : is_valid_nmea Standin.rmc_line = true.
Proof. apply (@raw_match_is_valid Standin.rmc_line). reflexivity. Defined.

(** ** Where a fix comes from *)

Ltac raised_cases :=
  try match goal with
      | e : exn |- _ => destruct e; cbn [is_ChecksumError]
      end;
  try discriminate.

Lemma parse_gngll_origin (nmea : Pynmea2) (line : pystr) (a b : option float) :
  parse_gngll nmea line = Returns (a, b) ->
  (a = None /\ b = None)
  \/ exists msg lat lon,
      parse nmea line = Returns msg
      /\ latitude nmea msg = Returns lat /\ longitude nmea msg = Returns lon
      /\ a = Some lat /\ b = Some lon
      /\ status nmea msg = Returns (lit "A").
Proof.
  unfold parse_gngll, try_except_pass, outcome_bind.
  destruct (parse nmea line) as [msg|e] eqn:Ep; cbv beta iota;
    [|raised_cases; intros [= <- <-]; auto].
  destruct (status nmea msg) as [st|e] eqn:Es; cbv beta iota;
    [|raised_cases; intros [= <- <-]; auto].
  destruct (pystr_eqb st (lit "A")) eqn:Ea; cbv beta iota;
    [|intros [= <- <-]; auto].
  destruct (latitude nmea msg) as [lat|e] eqn:Elat; cbv beta iota;
    [|raised_cases; intros [= <- <-]; auto].
  destruct (longitude nmea msg) as [lon|e] eqn:Elon; cbv beta iota;
    [|raised_cases; intros [= <- <-]; auto].
  intros [= <- <-]. right. apply pystr_eqb_eq in Ea. subst st.
  exists msg, lat, lon. auto 10.
Qed.

Lemma parse_gpgga_origin (nmea : Pynmea2) (line : pystr) (a b : option float) :
  parse_gpgga nmea line = Returns (a, b) ->
  (a = None /\ b = None)
  \/ exists msg lat lon,
      parse nmea line = Returns msg
      /\ latitude nmea msg = Returns lat /\ longitude nmea msg = Returns lon
      /\ a = Some lat /\ b = Some lon.
Proof.
  unfold parse_gpgga, try_except_pass, outcome_bind.
  destruct (parse nmea line) as [msg|e] eqn:Ep; cbv beta iota;
    [|raised_cases; intros [= <- <-]; auto].
  destruct (latitude nmea msg) as [lat|e] eqn:Elat; cbv beta iota;
    [|raised_cases; intros [= <- <-]; auto].
  destruct (longitude nmea msg) as [lon|e] eqn:Elon; cbv beta iota;
    [|raised_cases; intros [= <- <-]; auto].
  intros [= <- <-]. right. exists msg, lat, lon. auto 10.
Qed.

Lemma parseFix_origin (nmea : Pynmea2) (t : sentence_type) (line : pystr)
    (a b : option float) :
  parseFix nmea t line = Returns (a, b) ->
  (a = None /\ b = None)
  \/ exists msg lat lon,
      parse nmea line = Returns msg
      /\ latitude nmea msg = Returns lat /\ longitude nmea msg = Returns lon
      /\ a = Some lat /\ b = Some lon
      /\ (t <> GPGGA -> status nmea msg = Returns (lit "A")).
Proof.
  destruct t; cbn [parseFix]; intros H;
    [ apply parse_gngll_origin in H | apply parse_gpgga_origin in H
    | apply parse_gngll_origin in H | apply parse_gngll_origin in H ];
    (destruct H as [H | (msg & lat & lon & H)]; [left; exact H | right]);
    exists msg, lat, lon; intuition congruence.
Qed.

(** X3: whatever a sentence parser returns is either [(None, None)] or a
    pair of two numbers, never a mixed pair; the two numbers are the
    latitude and the longitude that the decoder gives for that very line,
    and for the three types with a status the status of that sentence is
    ['A']. *)
Theorem parser_fix_origin (nmea : Pynmea2) (t : sentence_type) (line : pystr)
    (a b : option float) :
  parseFix nmea t line = Returns (a, b) ->
  (a = None /\ b = None)
  \/ exists msg lat lon,
      parse nmea line = Returns msg
      /\ latitude nmea msg = Returns lat /\ longitude nmea msg = Returns lon
      /\ a = Some lat /\ b = Some lon
      /\ (t <> GPGGA -> status nmea msg = Returns (lit "A")).
Proof. apply parseFix_origin. Qed.

Lemma parser_fix_origin_witness :
  (Some 53.75%float = None /\ Some (-6.25)%float = None)
  \/ exists msg lat lon,
      parse Standin.decoder Standin.rmc_line = Returns msg
      /\ latitude Standin.decoder msg = Returns lat
      /\ longitude Standin.decoder msg = Returns lon
      /\ Some 53.75%float = Some lat /\ Some (-6.25)%float = Some lon
      /\ (GPRMC <> GPGGA ->
          status Standin.decoder msg = Returns (lit "A")).
Proof.
  apply (@parser_fix_origin Standin.decoder GPRMC Standin.rmc_line).
  reflexivity.
Defined.

(** ** The loop of the loader *)

Lemma combine_snoc {A B} (xs : list A) (ys : list B) (x : A) (y : B) :
  List.length xs = List.length ys ->
  combine (xs ++ [x]) (ys ++ [y]) = combine xs ys ++ [(x, y)].
Proof.
  revert ys. induction xs as [|x0 xs IH]; intros [|y0 ys]; simpl;
    try discriminate; [reflexivity|].
  intros [= H]. rewrite (IH ys H). reflexivity.
Qed.

Section Loop.

Variable nmea : Pynmea2.

Lemma loop_body_skip (line : pystr) (acc : list float * list float) :
  dispatched line = false -> loop_body nmea line acc = Returns acc.
Proof.
  unfold dispatched, loop_body. rewrite dispatch_recognized.
  destruct acc as [latitudes longitudes].
  destruct (is_valid_nmea line); simpl; [|reflexivity].
  destruct (recognized line); [discriminate | reflexivity].
Qed.

Lemma loop_body_shift (line : pystr) (latitudes longitudes : list float) :
  loop_body nmea line (latitudes, longitudes)
  = outcome_bind (loop_body nmea line ([], []))
      (fun fixes => Returns (latitudes ++ fst fixes, longitudes ++ snd fixes)).
Proof.
  unfold loop_body.
  destruct (negb (is_valid_nmea line)); simpl; [rewrite !app_nil_r; reflexivity|].
  destruct (dispatch nmea line) as [[[lat lon]|e]|]; simpl;
    [| reflexivity | rewrite !app_nil_r; reflexivity].
  destruct lat, lon; simpl; rewrite ?app_nil_r; reflexivity.
Qed.

Lemma for_lines_shift (lines : list pystr) :
  forall latitudes longitudes,
    for_lines nmea lines (latitudes, longitudes)
    = outcome_bind (for_lines nmea lines ([], []))
        (fun fixes => Returns (latitudes ++ fst fixes, longitudes ++ snd fixes)).
Proof.
  induction lines as [|line lines IH]; intros latitudes longitudes;
    cbn [for_lines].
  - simpl. rewrite !app_nil_r. reflexivity.
  - rewrite loop_body_shift.
    destruct (loop_body nmea line ([], [])) as [[la lo]|e];
      cbn [outcome_bind fst snd]; [|reflexivity].
    rewrite (IH (latitudes ++ la) (longitudes ++ lo)), (IH la lo).
    destruct (for_lines nmea lines ([], [])) as [[sa so]|e];
      cbn [outcome_bind fst snd]; [|reflexivity].
    rewrite !app_assoc. reflexivity.
Qed.

Lemma for_lines_app (first second : list pystr) :
  forall acc,
    for_lines nmea (first ++ second) acc
    = outcome_bind (for_lines nmea first acc) (for_lines nmea second).
Proof.
  induction first as [|line first IH]; intros acc; cbn [for_lines app].
  - reflexivity.
  - destruct (loop_body nmea line acc) as [acc'|e]; cbn [outcome_bind];
      [apply IH | reflexivity].
Qed.

Lemma loop_body_count (line : pystr) (acc acc' : list float * list float) :
  loop_body nmea line acc = Returns acc' ->
  List.length (fst acc')
  <= List.length (fst acc) + (if dispatched line then 1 else 0).
Proof.
  destruct (dispatched line) eqn:E.
  - destruct acc as [latitudes longitudes]. unfold loop_body.
    destruct (negb (is_valid_nmea line)); [intros [= <-]; simpl; lia|].
    destruct (dispatch nmea line) as [[[lat lon]|e]|]; simpl;
      [| discriminate | intros [= <-]; simpl; lia].
    destruct lat, lon; intros [= <-]; simpl; rewrite ?length_app; simpl; lia.
  - rewrite loop_body_skip by exact E. intros [= <-]. lia.
Qed.

Lemma for_lines_count (lines : list pystr) :
  forall acc acc',
    for_lines nmea lines acc = Returns acc' ->
    List.length (fst acc')
    <= List.length (fst acc) + List.length (filter dispatched lines).
Proof.
  induction lines as [|line lines IH]; intros acc acc'; cbn [for_lines filter].
  - intros [= <-]. simpl. lia.
  - destruct (loop_body nmea line acc) as [acc1|e] eqn:E; cbn [outcome_bind];
      [|discriminate].
    intros Hrest. apply IH in Hrest. apply loop_body_count in E.
    destruct (dispatched line); simpl in *; lia.
Qed.

Lemma loop_body_origin (line : pystr) (acc acc' : list float * list float) :
  loop_body nmea line acc = Returns acc' ->
  List.length (fst acc) = List.length (snd acc) ->
  forall pair,
    In pair (combine (fst acc') (snd acc')) ->
    In pair (combine (fst acc) (snd acc)) \/ decoded_fix nmea line pair.
Proof.
  destruct acc as [latitudes longitudes]. unfold loop_body.
  rewrite dispatch_recognized.
  destruct (is_valid_nmea line) eqn:Hvalid; cbn [negb];
    [|intros [= <-]; auto].
  destruct (recognized line) as [t|] eqn:Hrec; cbn [option_map];
    [|intros [= <-]; auto].
  destruct (parseFix nmea t line) as [[a b]|e] eqn:Hparse; cbn [outcome_bind];
    [|discriminate].
  destruct a as [lat|], b as [lon|]; intros [= <-]; auto.
  cbn [fst snd]. intros Hlen pair. rewrite combine_snoc by exact Hlen.
  intros Hin. apply in_app_or in Hin. destruct Hin as [Hin|[<-|[]]]; [auto|].
  right. split; [exact Hvalid|].
  destruct (@parseFix_origin nmea t line _ _ Hparse)
    as [[H _] | (msg & lat' & lon' & Hp & Hlat & Hlon & [= <-] & [= <-] & Hs)];
    [discriminate|].
  exists t, msg. auto 10.
Qed.

Lemma for_lines_origin (lines : list pystr) :
  forall acc acc',
    for_lines nmea lines acc = Returns acc' ->
    List.length (fst acc) = List.length (snd acc) ->
    forall pair,
      In pair (combine (fst acc') (snd acc')) ->
      In pair (combine (fst acc) (snd acc))
      \/ exists line, In line lines /\ decoded_fix nmea line pair.
Proof.
  induction lines as [|line lines IH]; intros acc acc'; cbn [for_lines].
  - intros [= <-]. auto.
  - destruct (loop_body nmea line acc) as [acc1|e] eqn:E; cbn [outcome_bind];
      [|discriminate].
    intros Hrest Hlen pair Hin.
    pose proof (@loop_body_lengths nmea line acc acc1 E Hlen) as Hlen1.
    destruct (IH _ _ Hrest Hlen1 pair Hin) as [H1 | (l & Hl & Hfix)].
    + destruct (@loop_body_origin line acc acc1 E Hlen pair H1)
        as [H0 | Hfix]; [auto|].
      right. exists line. simpl. auto.
    + right. exists l. simpl. auto.
Qed.

End Loop.

(** X4: the loop stops at the first dispatched line whose parser raises:
    on an existing file, if the parsers return for the lines before it,
    [load_gps_data] ends with that exception and returns no series, not
    even the fixes of the earlier lines. *)
Theorem load_gps_data_stops_at_exception (nmea : Pynmea2) (host : Host)
    (filename : string) (before after : list pystr) (line : pystr)
    (t : sentence_type) (e : exn) :
  path_exists host (abspath host filename) = true ->
  open_lines host (abspath host filename) = Returns (before ++ line :: after) ->
  Forall (parses nmea) before ->
  is_valid_nmea line = true ->
  recognized line = Some t ->
  parseFix nmea t line = Raises e ->
  load_gps_data nmea host filename = ([], Raises e).
Proof.
  intros Hexists Hopen Hbefore Hvalid Hrec Hraise.
  rewrite load_gps_data_existing by exact Hexists.
  rewrite Hopen. cbn [outcome_bind].
  rewrite (@for_lines_raises nmea before after line t e) by assumption.
  reflexivity.
Qed.

Lemma load_gps_data_stops_at_exception_witness :
  load_gps_data Standin.decoder
    (Standin.table_host
       [("log.txt"%string, [Standin.gga_line; Standin.truncated_line])])
    "log.txt"
  = ([], Raises ParseError).
Proof.
  apply (@load_gps_data_stops_at_exception Standin.decoder _ "log.txt"
           [Standin.gga_line] [] Standin.truncated_line GPGGA ParseError);
    try reflexivity.
  apply Forall_cons; [dispatched_line_returns | apply Forall_nil].
Defined.

Lemma prefix_recognized (line : pystr) (t : sentence_type) :
  startswith line (prefix t) = true -> recognized line = Some t.
Proof.
  rewrite startswith_firstn, pystr_eqb_eq. unfold recognized.
  destruct t;
    match goal with
    | |- context [List.length ?p] => change (List.length p) with 6
    end;
    intros ->; reflexivity.
Qed.

(** X5: the order of the [if]/[elif] chain plays no part: a line that
    begins with the prefix of a sentence type begins with no other of the
    four prefixes, and it is the parser of that type which is called, on
    the raw line. *)
Theorem dispatch_by_prefix (nmea : Pynmea2) (line : pystr) (t : sentence_type) :
  startswith line (prefix t) = true ->
  dispatch nmea line = Some (parseFix nmea t line)
  /\ forall t', startswith line (prefix t') = true -> t' = t.
Proof.
  intros H. apply prefix_recognized in H. split.
  - rewrite dispatch_recognized, H. reflexivity.
  - intros t' H'. apply prefix_recognized in H'. congruence.
Qed.

Lemma dispatch_by_prefix_witness :
  dispatch Standin.decoder Standin.rmc_line
  = Some (parse_gprmc Standin.decoder Standin.rmc_line).
Proof.
  apply (@dispatch_by_prefix Standin.decoder Standin.rmc_line GPRMC).
  reflexivity.
Defined.

(** X6: the loop over the concatenation of two sequences of lines returns
    the concatenation of the two series: what a line contributes does not
    depend on the lines before it. *)
Theorem for_lines_concatenation (nmea : Pynmea2) (first second : list pystr)
    (lats1 lons1 lats2 lons2 : list float) :
  for_lines nmea first ([], []) = Returns (lats1, lons1) ->
  for_lines nmea second ([], []) = Returns (lats2, lons2) ->
  for_lines nmea (first ++ second) ([], [])
  = Returns (lats1 ++ lats2, lons1 ++ lons2).
Proof.
  intros H1 H2. rewrite for_lines_app, H1. cbn [outcome_bind].
  rewrite for_lines_shift, H2. reflexivity.
Qed.

Lemma for_lines_concatenation_witness :
  for_lines Standin.decoder ([Standin.gga_line] ++ [Standin.rmc_line]) ([], [])
  = Returns ([53.25] ++ [53.75], [-6.5] ++ [-6.25])%float.
Proof.
  apply (@for_lines_concatenation Standin.decoder
           [Standin.gga_line] [Standin.rmc_line]);
    reflexivity.
Defined.

(** X7: a line that fails the validator or begins with none of the four
    prefixes is inert: it never reaches the decoder, so removing every
    such line from the input changes neither the series nor the exception
    with which the loop ends. *)
Theorem undispatched_lines_are_inert (nmea : Pynmea2) (lines : list pystr)
    (acc : list float * list float) :
  for_lines nmea (filter dispatched lines) acc = for_lines nmea lines acc.
Proof.
  revert acc. induction lines as [|line lines IH]; intros acc;
    cbn [filter for_lines]; [reflexivity|].
  destruct (dispatched line) eqn:E.
  - cbn [for_lines].
    destruct (loop_body nmea line acc) as [acc'|e]; cbn [outcome_bind];
      [apply IH | reflexivity].
  - rewrite (@loop_body_skip nmea line acc E). cbn [outcome_bind]. apply IH.
Qed.

(** X8: a line gives at most one fix: whenever [load_gps_data] returns,
    its series is no longer than the number of dispatched lines of the
    file, hence no longer than the file. *)
Theorem load_gps_data_fix_count (nmea : Pynmea2) (host : Host)
    (filename : string) (t : list event) (lines : list pystr)
    (latitudes longitudes : list float) :
  load_gps_data nmea host filename = (t, Returns (latitudes, longitudes)) ->
  open_lines host (abspath host filename) = Returns lines ->
  List.length latitudes <= List.length (filter dispatched lines)
  /\ List.length (filter dispatched lines) <= List.length lines.
Proof.
  intros Hload Hopen. split; [|apply filter_length_le].
  destruct (path_exists host (abspath host filename)) eqn:E.
  - rewrite load_gps_data_existing in Hload by exact E.
    rewrite Hopen in Hload. cbn [outcome_bind] in Hload.
    injection Hload as _ Hloop. apply for_lines_count in Hloop. exact Hloop.
  - rewrite load_gps_data_missing in Hload by exact E.
    injection Hload as _ <- _. simpl. lia.
Qed.

Lemma load_gps_data_fix_count_witness :
  List.length [53.25; 53.75]%float
  <= List.length (filter dispatched Standin.log_lines)
  /\ List.length (filter dispatched Standin.log_lines)
     <= List.length Standin.log_lines.
Proof.
  apply (@load_gps_data_fix_count Standin.decoder Standin.disk "log.txt" []
           Standin.log_lines [53.25; 53.75]%float [-6.5; -6.25]%float);
    reflexivity.
Defined.

(** X9: the loader invents nothing and mixes nothing up: whenever
    [load_gps_data] returns, every (latitude, longitude) pair of its
    series is the pair that the decoder gives for one line of the file, a
    line that passes the validator and begins with a recognised prefix,
    and whose status is ['A'] unless it is a [$GPGGA] line. *)
Theorem load_gps_data_fix_origin (nmea : Pynmea2) (host : Host)
    (filename : string) (t : list event) (lines : list pystr)
    (latitudes longitudes : list float) (pair : float * float) :
  load_gps_data nmea host filename = (t, Returns (latitudes, longitudes)) ->
  open_lines host (abspath host filename) = Returns lines ->
  In pair (combine latitudes longitudes) ->
  exists line, In line lines /\ decoded_fix nmea line pair.
Proof.
  intros Hload Hopen Hin.
  destruct (path_exists host (abspath host filename)) eqn:E.
  - rewrite load_gps_data_existing in Hload by exact E.
    rewrite Hopen in Hload. cbn [outcome_bind] in Hload.
    injection Hload as _ Hloop.
    destruct (@for_lines_origin nmea lines _ _ Hloop eq_refl pair Hin)
      as [[] | H].
    exact H.
  - rewrite load_gps_data_missing in Hload by exact E.
    injection Hload as _ <- <-. destruct Hin.
Qed.

Lemma load_gps_data_fix_origin_witness :
  exists line,
    In line Standin.log_lines
    /\ decoded_fix Standin.decoder line (53.75, -6.25)%float.
Proof.
  apply (@load_gps_data_fix_origin Standin.decoder Standin.disk "log.txt" []
           Standin.log_lines [53.25; 53.75]%float [-6.5; -6.25]%float).
  - reflexivity.
  - reflexivity.
  - simpl. auto.
Defined.

(** ** The statistics, once more *)

Lemma append_errors_comprehension (np : Numeric) (latitudes longitudes : list float)
    (points : list (float * float)) :
  forall errors,
    append_errors np (np_mean np latitudes, np_mean np longitudes) points errors
    = outcome_bind (comprehension_errors np latitudes longitudes points)
        (fun ds => Returns (errors ++ ds)).
Proof.
  induction points as [|[lat lon] points IH]; intros errors; simpl.
  - rewrite app_nil_r. reflexivity.
  - destruct (geodesic_meters np (np_mean np latitudes, np_mean np longitudes)
                (lat, lon)) as [d|e]; simpl; [|reflexivity].
    rewrite IH.
    destruct (comprehension_errors np latitudes longitudes points) as [ds|e];
      simpl; [|reflexivity].
    rewrite <- app_assoc. reflexivity.
Qed.

(** X10: [main] computes the errors a second time, and gets what
    [calculate_rms] got: the loop of [calculate_rms] and the comprehension
    of [main] yield the same distances in the same order, or raise the
    same exception. *)
Theorem errors_computed_twice_agree (np : Numeric)
    (latitudes longitudes : list float) :
  append_errors np (np_mean np latitudes, np_mean np longitudes)
    (combine latitudes longitudes) []
  = comprehension_errors np latitudes longitudes (combine latitudes longitudes).
Proof.
  rewrite append_errors_comprehension.
  destruct (comprehension_errors np latitudes longitudes
              (combine latitudes longitudes)); reflexivity.
Qed.

Lemma append_errors_raises (np : Numeric) (centre : float * float)
    (before after : list (float * float)) (point : float * float) (e : exn) :
  Forall (fun q => exists d, geodesic_meters np centre q = Returns d) before ->
  geodesic_meters np centre point = Raises e ->
  forall errors,
    append_errors np centre (before ++ point :: after) errors = Raises e.
Proof.
  intros Hbefore Hpoint.
  induction Hbefore as [|[lat lon] before [d Hd] _ IH]; intros errors; simpl.
  - destruct point as [lat lon]. rewrite Hpoint. reflexivity.
  - rewrite Hd. simpl. apply IH.
Qed.

(** X11: a distance that [geodesic] refuses to compute ends the program
    before it reports anything: when the loader returns a series and the
    distance of one of its points to the centroid raises, [main] ends with
    that exception, having printed no statistic, written no CSV and shown
    no histogram. *)
Theorem main_stops_at_geodesic_error (nmea : Pynmea2) (np : Numeric)
    (host : Host) (file : string) (t : list event)
    (before after : list (float * float)) (point : float * float) (e : exn) :
  let series := before ++ point :: after in
  load_gps_data nmea host file
  = (t, Returns (map fst series, map snd series)) ->
  Forall (fun q => exists d,
              geodesic_meters np (centroid np series) q = Returns d) before ->
  geodesic_meters np (centroid np series) point = Raises e ->
  main nmea np host file = (t, Raises e).
Proof.
  intros series Hload Hbefore Hpoint. unfold main. rewrite Hload.
  cbn [io_bind].
  assert (Hne : series <> []) by (subst series; destruct before; discriminate).
  rewrite (series_not_empty Hne). unfold calculate_rms.
  rewrite (series_not_empty Hne), combine_map_fst_snd.
  fold (centroid np series). unfold series at 2.
  rewrite (@append_errors_raises np _ before after point e Hbefore Hpoint).
  cbn [io_bind lift]. rewrite app_nil_r. reflexivity.
Qed.

Lemma main_stops_at_geodesic_error_witness :
  main Standin.off_range_decoder Standin.flat_numeric
    (Standin.table_host
       [("log.txt"%string, [Standin.gga_line; Standin.rmc_line])])
    "log.txt"
  = ([], Raises ValueError).
Proof.
  apply (@main_stops_at_geodesic_error Standin.off_range_decoder
           Standin.flat_numeric _ "log.txt" []
           [(53.25, -6.5)%float] [] (95, 0)%float ValueError).
  - vm_compute. reflexivity.
  - apply Forall_cons; [|apply Forall_nil]. eexists. vm_compute. reflexivity.
  - vm_compute. reflexivity.
Defined.

(** ** What [main] writes *)

Lemma print_trace_has_no_csv (t : list event) (filename : string)
    (rows : list (float * float)) :
  forallb is_print t = true -> ~ In (WriteCsv filename rows) t.
Proof.
  intros H Hin. rewrite forallb_forall in H. apply H in Hin. discriminate.
Qed.

Ltac run_main_in H :=
  repeat (first
    [ match type of H with
      | context [append_errors ?np ?c ?ps ?es] =>
          destruct (append_errors np c ps es) eqn:?
      end
    | match type of H with
      | context [comprehension_errors ?np ?la ?lo ?ps] =>
          destruct (comprehension_errors np la lo ps) eqn:?
      end
    | match type of H with
      | context [nth_error ?l ?n] => destruct (nth_error l n) eqn:?
      end
    | match type of H with
      | context [if ?b then _ else _] => destruct b eqn:?
      end ];
    cbn [io_bind lift io_ret print emit fst snd app negb] in H).

(** X12: the CSV file is written only with data: if a run of [main]
    writes it, then the loader returned a series with at least one
    latitude and one longitude, the rows written are exactly the loaded
    pairs in their order, and the file is named after the input file. *)
Theorem csv_only_with_data (nmea : Pynmea2) (np : Numeric) (host : Host)
    (file filename : string) (rows : list (float * float)) :
  In (WriteCsv filename rows) (fst (main nmea np host file)) ->
  exists t latitudes longitudes,
    load_gps_data nmea host file = (t, Returns (latitudes, longitudes))
    /\ latitudes <> [] /\ longitudes <> []
    /\ rows = combine latitudes longitudes
    /\ filename = (splitext_root host (basename host file) ++ ".csv")%string.
Proof.
  intros Hin.
  pose proof (load_gps_data_prints nmea host file) as Hprints.
  unfold main in Hin.
  destruct (load_gps_data nmea host file) as [t [[latitudes longitudes]|e]]
    eqn:Hload; cbn [io_bind fst] in Hin, Hprints.
  2: { exfalso. exact (print_trace_has_no_csv _ _ _ Hprints Hin). }
  destruct (not_ latitudes || not_ longitudes) eqn:Hempty.
  { cbn [print emit fst] in Hin. apply in_app_or in Hin.
    destruct Hin as [Hin | [Hin | []]]; [|discriminate].
    exfalso. exact (print_trace_has_no_csv _ _ _ Hprints Hin). }
  unfold calculate_rms, calculate_percentiles, size, getitem,
    save_coordinates, plot_errors in Hin.
  rewrite Hempty in Hin.
  run_main_in Hin.
  all: apply in_app_or in Hin; destruct Hin as [Hin | Hin];
    [exfalso; exact (print_trace_has_no_csv _ _ _ Hprints Hin)|].
  all: simpl in Hin;
    repeat match type of Hin with
           | _ \/ _ => destruct Hin as [Hin | Hin]
           | False => destruct Hin
           end;
    try discriminate Hin.
  all: injection Hin as <- <-; exists t, latitudes, longitudes;
    apply orb_false_iff in Hempty; destruct Hempty as [Hla Hlo];
    repeat split; try reflexivity;
    [destruct latitudes | destruct longitudes]; discriminate.
Qed.

Lemma csv_only_with_data_witness :
  exists t latitudes longitudes,
    load_gps_data Standin.decoder Standin.disk "log.txt"
    = (t, Returns (latitudes, longitudes))
    /\ latitudes <> [] /\ longitudes <> []
    /\ [(53.25, -6.5); (53.75, -6.25)]%float = combine latitudes longitudes
    /\ "log.txt.csv"%string
       = (splitext_root Standin.disk (basename Standin.disk "log.txt")
            ++ ".csv")%string.
Proof.
  apply (@csv_only_with_data Standin.decoder Standin.flat_numeric Standin.disk
           "log.txt" "log.txt.csv" [(53.25, -6.5); (53.75, -6.25)]%float).
  vm_compute. do 3 right. left. reflexivity.
Defined.

Lemma main_with_data_witness :
  exists errors p68 p95,
    let rms := root_mean_square Standin.flat_numeric errors in
    main Standin.decoder Standin.flat_numeric Standin.disk "log.txt"
    = (List.app []
         [ Print (if PrimFloat.is_nan rms then "RMS 计算失败。"%string
                  else ("RMS: " ++ format_2f Standin.disk rms ++ " meters")%string);
           Print ("68% percentile error: "
                    ++ format_2f Standin.disk p68 ++ " meters")%string;
           Print ("95% percentile error: "
                    ++ format_2f Standin.disk p95 ++ " meters")%string;
           WriteCsv "log.txt.csv" [(53.25, -6.5); (53.75, -6.25)]%float;
           ShowHistogram errors 50 "log.txt" "Error (meters)" "Frequency" ],
       Returns tt).
Proof.
  eexists _, _, _.
  apply (@main_with_data Standin.decoder Standin.flat_numeric Standin.disk
           "log.txt" [] [(53.25, -6.5); (53.75, -6.25)]%float).
  - reflexivity.
  - discriminate.
  - repeat (apply Forall2_cons; [vm_compute; reflexivity|]). apply Forall2_nil.
  - vm_compute. reflexivity.
Defined.
